(** * Trading backend: order placement, execution and portfolio accounting

    A shallow embedding of [app.py]: the request handler [place_order], the
    helper [execute_order], and the three in-memory collections they
    mutate ([orders_db], [trades_db], [portfolio_db]); the read endpoints
    [get_instruments], [get_order_status], [get_trades] and [get_portfolio];
    and, of [sdk.py], the client wrapper [TradingSDK.place_order] with the
    HTTP exchange as a parameter.

    Modelling conventions.
    - A request body is the value produced by [request.get_json()]: an
      arbitrary JSON value.  Python's [None] and JSON [null] coincide, and
      [data.get(k)] yields [None] for a missing key, so a missing field and
      a [null] field are the same value [JNull].
    - Numbers are exact rationals ([Q]).  Python integers are represented
      exactly; Python floats are idealised: no rounding, no infinities, no
      NaN.  Equalities between amounts are therefore stated with [==] on
      [Q]; they hold for the source up to floating-point rounding.
    - [uuid.uuid4()] and [datetime.now()] are inputs supplied by the
      environment, gathered in the record [env].
    - A Python exception raised inside the handler's [try] block is caught
      by [except Exception] and becomes a 500 response; the mutations done
      before the exception stay in place. *)

From Stdlib Require Import QArith Qfield Lqa.
From stdpp Require Import gmap strings list fin_maps.

Local Open Scope string_scope.

(** ** JSON values and the Python operations applied to them *)

#[warnings="-register-all"]
Inductive json : Type :=
| JNull
| JBool (b : bool)
| JNum (q : Q)
| JStr (s : string)
| JArr (items : list json)
| JObj (fields : list (string * json)).

(** Python truthiness, as used by [not x]. *)
Definition truthy (v : json) : bool :=
  match v with
  | JNull => false
  | JBool b => b
  | JNum q => negb (Qeq_bool q 0)
  | JStr s => negb (String.eqb s "")
  | JArr items => match items with [] => false | _ => true end
  | JObj fields => match fields with [] => false | _ => true end
  end.

(** [v == 'literal']: only a string equals a string. *)
Definition py_eq_str (v : json) (s : string) : bool :=
  match v with
  | JStr s' => String.eqb s' s
  | _ => false
  end.

(** [v in [s1, s2, ...]] for a list of string literals. *)
Definition py_in (v : json) (l : list string) : bool :=
  existsb (py_eq_str v) l.

(** The numeric value of an operand of [<=], [<], [+], [-], [*]:
    numbers, and booleans ([True] is 1, [False] is 0).  Any other operand
    makes the arithmetic and comparisons of the handler raise [TypeError]. *)
Definition as_number (v : json) : option Q :=
  match v with
  | JNum q => Some q
  | JBool b => Some (if b then 1%Q else 0%Q)
  | _ => None
  end.

(** [dict.get(key)] on a parsed JSON object: the last binding of a
    duplicated key wins; a missing key gives [None]. *)
Definition obj_get (key : string) (fields : list (string * json)) : json :=
  match find (fun kv => String.eqb (fst kv) key) (rev fields) with
  | Some kv => snd kv
  | None => JNull
  end.

Definition Qlt_bool (x y : Q) : bool := negb (Qle_bool y x).

(** ** Data model

    The dictionaries of the source are records; the modules keep their
    keys apart ([Order.quantity], [Holding.quantity]). *)

Inductive side := BUY | SELL.
Inductive style := MARKET | LIMIT.
Inductive order_status := PLACED | EXECUTED.

Module Instrument.
Record t := {
  symbol : string;
  exchange : string;
  instrumentType : string;
  lastTradedPrice : Q
}.
End Instrument.

Module Order.
Record t := {
  orderId : string;
  userId : string;
  symbol : string;
  orderType : side;
  orderStyle : style;
  quantity : json;
  price : json;
  status : order_status;
  timestamp : string
}.
End Order.

Module Trade.
Record t := {
  tradeId : string;
  orderId : string;
  userId : string;
  symbol : string;
  orderType : side;
  quantity : json;
  price : json;
  timestamp : string
}.
End Trade.

Module Holding.
Record t := {
  quantity : Q;
  averagePrice : Q;
  totalCost : Q
}.
End Holding.

Record state := {
  orders_db : gmap string Order.t;
  trades_db : list Trade.t;
  portfolio_db : gmap string Holding.t
}.

Definition instrument (sym : string) (ltp : Q) : Instrument.t :=
  {| Instrument.symbol := sym;
     Instrument.exchange := "NSE";
     Instrument.instrumentType := "EQUITY";
     Instrument.lastTradedPrice := ltp |}.

Definition instruments_db : list Instrument.t :=
  [ instrument "RELIANCE" (245050 # 100);    (* 2450.50 *)
    instrument "TCS" (368025 # 100);         (* 3680.25 *)
    instrument "INFY" (154275 # 100);        (* 1542.75 *)
    instrument "HDFCBANK" (162530 # 100);    (* 1625.30 *)
    instrument "ICICIBANK" (108960 # 100) ]. (* 1089.60 *)

Definition initial_state : state :=
  {| orders_db := ∅; trades_db := []; portfolio_db := ∅ |}.

Definition MOCK_USER_ID : string := "user123".

(** ** Responses *)

Inductive exn := TypeError | AttributeError | ZeroDivisionError.

Inductive message :=
| Text (s : string)
| InvalidSymbol (sym : json)      (* f"Invalid symbol: {symbol}" *)
| ExnText (e : exn).              (* str(e) *)

Inductive response :=
| Success (order : Order.t)         (* 201, {"status": "success", "data": order} *)
| Error (code : nat) (m : message).

(** Values drawn from the environment during one request. *)
Record env := {
  uuid_order : string;   (* uuid4 of the order *)
  now_order : string;    (* timestamp of the order *)
  uuid_trade : string;   (* uuid4 of the trade, drawn only on execution *)
  now_trade : string     (* timestamp of the trade *)
}.

(** ** execute_order *)

Definition set_status (o : Order.t) (s : order_status) : Order.t :=
  {| Order.orderId := Order.orderId o;
     Order.userId := Order.userId o;
     Order.symbol := Order.symbol o;
     Order.orderType := Order.orderType o;
     Order.orderStyle := Order.orderStyle o;
     Order.quantity := Order.quantity o;
     Order.price := Order.price o;
     Order.status := s;
     Order.timestamp := Order.timestamp o |}.

Definition zero_holding : Holding.t :=
  {| Holding.quantity := 0; Holding.averagePrice := 0; Holding.totalCost := 0 |}.

(** The result pairs the state reached with the exception that escaped,
    if any. *)
Definition execute_order (order_id trade_id now : string) (st : state)
  : state * option exn :=
  match orders_db st !! order_id with
  | None => (st, None)
  | Some order0 =>
    let order := set_status order0 EXECUTED in
    let orders := <[order_id := order]> (orders_db st) in
    let trade :=
      {| Trade.tradeId := trade_id;
         Trade.orderId := order_id;
         Trade.userId := Order.userId order;
         Trade.symbol := Order.symbol order;
         Trade.orderType := Order.orderType order;
         Trade.quantity := Order.quantity order;
         Trade.price := Order.price order;
         Trade.timestamp := now |} in
    let trades := (trades_db st ++ [trade])%list in
    let sym := Order.symbol order in
    let portfolio :=
      match portfolio_db st !! sym with
      | None => <[sym := zero_holding]> (portfolio_db st)
      | Some _ => portfolio_db st
      end in
    let holding := default zero_holding (portfolio !! sym) in
    let finish pf ex :=
      ({| orders_db := orders; trades_db := trades; portfolio_db := pf |}, ex) in
    match Order.orderType order with
    | BUY =>
      match as_number (Order.quantity order), as_number (Order.price order) with
      | Some q, Some p =>
        let new_total_cost := (Holding.totalCost holding + q * p)%Q in
        let new_quantity := (Holding.quantity holding + q)%Q in
        if Qeq_bool new_quantity 0 then
          (* the two assignments before the division have taken effect *)
          finish (<[sym := {| Holding.quantity := new_quantity;
                              Holding.averagePrice := Holding.averagePrice holding;
                              Holding.totalCost := new_total_cost |}]> portfolio)
                 (Some ZeroDivisionError)
        else
          finish (<[sym := {| Holding.quantity := new_quantity;
                              Holding.averagePrice := (new_total_cost / new_quantity)%Q;
                              Holding.totalCost := new_total_cost |}]> portfolio)
                 None
      | _, _ => finish portfolio (Some TypeError)
      end
    | SELL =>
      match as_number (Order.quantity order) with
      | Some q =>
        let new_quantity := (Holding.quantity holding - q)%Q in
        if Qeq_bool new_quantity 0 then
          finish (delete sym portfolio) None
        else
          finish (<[sym := {| Holding.quantity := new_quantity;
                              Holding.averagePrice := Holding.averagePrice holding;
                              Holding.totalCost :=
                                (new_quantity * Holding.averagePrice holding)%Q |}]>
                    portfolio)
                 None
      | None => finish portfolio (Some TypeError)
      end
    end
  end.

(** ** place_order *)

Definition find_instrument (s : string) : option Instrument.t :=
  find (fun i => String.eqb (Instrument.symbol i) s) instruments_db.

(** [next((i for i in instruments_db if i['symbol'] == symbol), None)]:
    no catalog symbol equals a value that is not a string, so a hit also
    tells that [symbol] is the string [s]. *)
Definition lookup_symbol (sym : json) : option (string * Instrument.t) :=
  match sym with
  | JStr s => (fun i => (s, i)) <$> find_instrument s
  | _ => None
  end.

(** [portfolio_db.get(symbol, {}).get('quantity', 0)] *)
Definition held_quantity (st : state) (s : string) : Q :=
  match portfolio_db st !! s with
  | Some h => Holding.quantity h
  | None => 0%Q
  end.

Definition bad_request (m : string) (st : state) : response * state :=
  (Error 400 (Text m), st).

Definition place_order (e : env) (data : json) (st : state) : response * state :=
  if negb (truthy data) then bad_request "Request body is required" st else
  match data with
  | JObj fields =>
    let order_type := obj_get "orderType" fields in
    let order_style := obj_get "orderStyle" fields in
    let sym := obj_get "symbol" fields in
    let qty := obj_get "quantity" fields in
    let prc := obj_get "price" fields in
    if negb (py_in order_type ["BUY"; "SELL"]) then
      bad_request "orderType must be BUY or SELL" st
    else if negb (py_in order_style ["MARKET"; "LIMIT"]) then
      bad_request "orderStyle must be MARKET or LIMIT" st
    else if negb (truthy sym) then
      bad_request "symbol is required" st
    else if negb (truthy qty) then
      bad_request "quantity must be greater than 0" st
    else
      match as_number qty with
      | None => (Error 500 (ExnText TypeError), st)   (* [quantity <= 0] raises *)
      | Some q =>
        if Qle_bool q 0 then
          bad_request "quantity must be greater than 0" st
        else if py_eq_str order_style "LIMIT" && negb (truthy prc) then
          bad_request "price is required for LIMIT orders" st
        else
          match lookup_symbol sym with
          | None => (Error 400 (InvalidSymbol sym), st)
          | Some (s, instrument) =>
            if py_eq_str order_type "SELL" && Qlt_bool (held_quantity st s) q then
              bad_request "Insufficient holdings to sell" st
            else
              let order_id := uuid_order e in
              let order :=
                {| Order.orderId := order_id;
                   Order.userId := MOCK_USER_ID;
                   Order.symbol := s;
                   Order.orderType :=
                     if py_eq_str order_type "BUY" then BUY else SELL;
                   Order.orderStyle :=
                     if py_eq_str order_style "MARKET" then MARKET else LIMIT;
                   Order.quantity := qty;
                   Order.price :=
                     if py_eq_str order_style "LIMIT" then prc
                     else JNum (Instrument.lastTradedPrice instrument);
                   Order.status := PLACED;
                   Order.timestamp := now_order e |} in
              let st1 :=
                {| orders_db := <[order_id := order]> (orders_db st);
                   trades_db := trades_db st;
                   portfolio_db := portfolio_db st |} in
              let '(st2, raised) :=
                if py_eq_str order_style "MARKET"
                then execute_order order_id (uuid_trade e) (now_trade e) st1
                else (st1, None) in
              match raised with
              | Some ex => (Error 500 (ExnText ex), st2)
              | None =>
                (* [order] is the object stored in [orders_db]: the response
                   shows what [execute_order] did to it *)
                (Success (default order (orders_db st2 !! order_id)), st2)
              end
          end
      end
  | _ => (Error 500 (ExnText AttributeError), st)   (* [data.get] does not exist *)
  end.

(** A history of requests, each processed to completion before the next. *)
Definition run (history : list (env * json)) (st : state) : state :=
  fold_left (fun st r => snd (place_order (fst r) (snd r) st)) history st.

(** * The specification's view of the handler *)

(** ** The validator, check by check

    The eight checks of the order validator, each written on its own as a
    function of the request (and, for the last one, of the ledger), in the
    order the specification lists them, with the message each one reports.
    Their tests are evaluated as Python evaluates them: presence is
    truthiness, and [Crash] is the outcome of a check whose evaluation
    raises. *)

Inductive verdict :=
| Pass
| Fail (m : message)
| Crash (e : exn).

Definition with_field (key : string) (data : json) (k : json -> verdict) : verdict :=
  match data with
  | JObj fields => k (obj_get key fields)
  | _ => Crash AttributeError
  end.

(** The quantity held under the request's symbol: nothing is held under
    a symbol that is not a string. *)
Definition held_under (st : state) (sym : json) : Q :=
  match sym with
  | JStr s => held_quantity st s
  | _ => 0%Q
  end.

(** 1. Request body present. *)
Definition check_body (data : json) : verdict :=
  if truthy data then Pass else Fail (Text "Request body is required").

(** 2. orderType in {BUY, SELL}. *)
Definition check_order_type (data : json) : verdict :=
  with_field "orderType" data (fun v =>
    if py_in v ["BUY"; "SELL"] then Pass
    else Fail (Text "orderType must be BUY or SELL")).

(** 3. orderStyle in {MARKET, LIMIT}. *)
Definition check_order_style (data : json) : verdict :=
  with_field "orderStyle" data (fun v =>
    if py_in v ["MARKET"; "LIMIT"] then Pass
    else Fail (Text "orderStyle must be MARKET or LIMIT")).

(** 4. symbol non-empty. *)
Definition check_symbol (data : json) : verdict :=
  with_field "symbol" data (fun v =>
    if truthy v then Pass else Fail (Text "symbol is required")).

(** 5. quantity present and > 0. *)
Definition check_quantity (data : json) : verdict :=
  with_field "quantity" data (fun v =>
    if truthy v then
      match as_number v with
      | Some q => if Qle_bool q 0
                  then Fail (Text "quantity must be greater than 0") else Pass
      | None => Crash TypeError
      end
    else Fail (Text "quantity must be greater than 0")).

(** 6. LIMIT implies price present. *)
Definition check_price (data : json) : verdict :=
  with_field "orderStyle" data (fun sty =>
  with_field "price" data (fun prc =>
    if py_eq_str sty "LIMIT" && negb (truthy prc)
    then Fail (Text "price is required for LIMIT orders") else Pass)).

(** 7. symbol in catalog. *)
Definition check_catalog (data : json) : verdict :=
  with_field "symbol" data (fun sym =>
    match lookup_symbol sym with
    | Some _ => Pass
    | None => Fail (InvalidSymbol sym)
    end).

(** 8. SELL implies sufficient holding; no holding counts as 0. *)
Definition check_holding (st : state) (data : json) : verdict :=
  with_field "orderType" data (fun typ =>
  with_field "symbol" data (fun sym =>
  with_field "quantity" data (fun qty =>
    if py_eq_str typ "SELL" then
      match as_number qty with
      | Some q =>
        if Qlt_bool (held_under st sym) q
        then Fail (Text "Insufficient holdings to sell") else Pass
      | None => Crash TypeError
      end
    else Pass))).

Definition checks (st : state) (data : json) : list verdict :=
  [ check_body data; check_order_type data; check_order_style data;
    check_symbol data; check_quantity data; check_price data;
    check_catalog data; check_holding st data ].

Definition is_pass (v : verdict) : bool :=
  match v with Pass => true | _ => false end.

(** A valid request passes all eight checks. *)
Definition valid (st : state) (data : json) : bool :=
  forallb is_pass (checks st data).

(** ** The ledger invariant *)

Definition holding_ok (h : Holding.t) : Prop :=
  (Holding.totalCost h == Holding.quantity h * Holding.averagePrice h)%Q /\
  (0 < Holding.quantity h)%Q.

Definition ledger_inv (st : state) : Prop :=
  forall s h, portfolio_db st !! s = Some h -> holding_ok h.

(** The states the running system can be in. *)
Inductive reachable : state -> Prop :=
| reachable_initial : reachable initial_state
| reachable_step e data st :
    reachable st -> reachable (snd (place_order e data st)).

(** ** Auxiliary definitions used in the statements *)

(** The holding [execute_order] works on: the stored one, or the fresh
    all-zero holding it first inserts. *)
Definition holding_of (st : state) (s : string) : Holding.t :=
  default zero_holding (portfolio_db st !! s).

(** The fields of a request body that is an object. *)
Definition fields_of (data : json) : list (string * json) :=
  match data with JObj fields => fields | _ => [] end.

(** What passing the eight checks tells about a request. *)
Record accepted (st : state) (fields : list (string * json))
       (s : string) (i : Instrument.t) (q : Q) : Prop := {
  acc_body : truthy (JObj fields) = true;
  acc_type : py_in (obj_get "orderType" fields) ["BUY"; "SELL"] = true;
  acc_style : py_in (obj_get "orderStyle" fields) ["MARKET"; "LIMIT"] = true;
  acc_symbol : truthy (obj_get "symbol" fields) = true;
  acc_quantity : truthy (obj_get "quantity" fields) = true;
  acc_number : as_number (obj_get "quantity" fields) = Some q;
  acc_positive : Qle_bool q 0 = false;
  acc_price :
    py_eq_str (obj_get "orderStyle" fields) "LIMIT"
      && negb (truthy (obj_get "price" fields)) = false;
  acc_catalog : lookup_symbol (obj_get "symbol" fields) = Some (s, i);
  acc_holding :
    py_eq_str (obj_get "orderType" fields) "SELL"
      && Qlt_bool (held_quantity st s) q = false
}.

(** The outcome of running the checks in order: the first one that does
    not pass. *)
Fixpoint first_failure (vs : list verdict) : verdict :=
  match vs with
  | [] => Pass
  | Pass :: rest => first_failure rest
  | v :: _ => v
  end.


(** The first five checks: body, orderType, orderStyle, symbol, quantity. *)
Definition passes_first_five (st : state) (data : json) : bool :=
  forallb is_pass (firstn 5 (checks st data)).

Definition price_required : message := Text "price is required for LIMIT orders".


(** The holding the BUY branch of [execute_order] leaves when the division
    succeeds, and the holding its SELL branch leaves when the quantity does
    not drop to zero. *)
Definition bought (h : Holding.t) (q p : Q) : Holding.t :=
  {| Holding.quantity := Holding.quantity h + q;
     Holding.averagePrice := (Holding.totalCost h + q * p) / (Holding.quantity h + q);
     Holding.totalCost := Holding.totalCost h + q * p |}.

Definition sold (h : Holding.t) (q : Q) : Holding.t :=
  {| Holding.quantity := Holding.quantity h - q;
     Holding.averagePrice := Holding.averagePrice h;
     Holding.totalCost := (Holding.quantity h - q) * Holding.averagePrice h |}.

(** The trade [execute_order] appends for the stored order [o]. *)
Definition trade_of (trade_id order_id now : string) (o : Order.t) : Trade.t :=
  {| Trade.tradeId := trade_id;
     Trade.orderId := order_id;
     Trade.userId := Order.userId o;
     Trade.symbol := Order.symbol o;
     Trade.orderType := Order.orderType o;
     Trade.quantity := Order.quantity o;
     Trade.price := Order.price o;
     Trade.timestamp := now |}.

(** The order [place_order] builds for a MARKET request on the catalog
    entry [i] of symbol [s], and the trade its execution appends. *)
Definition market_order (e : env) (fields : list (string * json))
    (s : string) (i : Instrument.t) (t : side) (stat : order_status) : Order.t :=
  {| Order.orderId := uuid_order e; Order.userId := MOCK_USER_ID; Order.symbol := s;
     Order.orderType := t; Order.orderStyle := MARKET;
     Order.quantity := obj_get "quantity" fields;
     Order.price := JNum (Instrument.lastTradedPrice i);
     Order.status := stat; Order.timestamp := now_order e |}.

(** The order [place_order] builds for a LIMIT request. *)
Definition limit_order (e : env) (fields : list (string * json)) (s : string)
  : Order.t :=
  {| Order.orderId := uuid_order e;
     Order.userId := MOCK_USER_ID;
     Order.symbol := s;
     Order.orderType :=
       if py_eq_str (obj_get "orderType" fields) "BUY" then BUY else SELL;
     Order.orderStyle := LIMIT;
     Order.quantity := obj_get "quantity" fields;
     Order.price := obj_get "price" fields;
     Order.status := PLACED;
     Order.timestamp := now_order e |}.

Definition market_trade (e : env) (fields : list (string * json))
    (s : string) (i : Instrument.t) (t : side) : Trade.t :=
  trade_of (uuid_trade e) (uuid_order e) (now_trade e)
           (market_order e fields s i t EXECUTED).

(** ** Sample requests and states *)

Definition env1 : env :=
  {| uuid_order := "order-1"; now_order := "2024-01-01T10:00:00";
     uuid_trade := "trade-1"; now_trade := "2024-01-01T10:00:01" |}.

Definition env2 : env :=
  {| uuid_order := "order-2"; now_order := "2024-01-01T11:00:00";
     uuid_trade := "trade-2"; now_trade := "2024-01-01T11:00:01" |}.

Definition request (sym typ sty : string) (qty : json) (prc : json) : json :=
  JObj [("symbol", JStr sym); ("orderType", JStr typ); ("quantity", qty);
        ("orderStyle", JStr sty); ("price", prc)].

Definition buy10 : json := request "RELIANCE" "BUY" "MARKET" (JNum 10) JNull.

Definition sell10 : json := request "RELIANCE" "SELL" "MARKET" (JNum 10) JNull.

Definition sell4 : json := request "RELIANCE" "SELL" "MARKET" (JNum 4) JNull.


(** A LIMIT SELL of 11 RELIANCE, one more than [holding10] holds. *)
Definition sell11_limit : json :=
  request "RELIANCE" "SELL" "LIMIT" (JNum 11) (JNum 2500).

Definition buy10_tcs : json := request "TCS" "BUY" "MARKET" (JNum 10) JNull.

Definition sell10_tcs_limit : json :=
  request "TCS" "SELL" "LIMIT" (JNum 10) (JNum 3680).


(** A LIMIT request with price 0: the price is there, and it is falsy. *)
Definition limit_price_zero : json :=
  request "RELIANCE" "BUY" "LIMIT" (JNum 1) (JNum 0).

(** A LIMIT request with a negative price. *)
Definition limit_price_negative : json :=
  request "RELIANCE" "BUY" "LIMIT" (JNum 1) (JNum (-5)).


(** The state after buying 10 RELIANCE at market. *)
Definition holding10 : state := run [(env1, buy10)] initial_state.

(** The state after buying 10 TCS at market. *)
Definition holding10_tcs : state := run [(env1, buy10_tcs)] initial_state.

(** Buying 10 RELIANCE, then selling 4 of them. *)
Definition buy10_sell4 : list (env * json) := [(env1, buy10); (env2, sell4)].

(** The RELIANCE holding in [holding10], and the one [buy10_sell4] leaves. *)
Definition reliance10 : Holding.t :=
  {| Holding.quantity := 10; Holding.averagePrice := 2450500 # 1000;
     Holding.totalCost := 2450500 # 100 |}.


(** A ledger that no history produces: a holding with quantity -1. *)
Definition short_state : state :=
  {| orders_db := ∅; trades_db := [];
     portfolio_db :=
       {[ "RELIANCE" := {| Holding.quantity := -1;
                           Holding.averagePrice := 0;
                           Holding.totalCost := 0 |} ]} |}.

(** * The read endpoints *)

(** The answer of a read endpoint: 200 with the data, or 404 with a
    message. *)
Inductive reply (A : Type) : Type :=
| Ok200 (data : A)
| NotFound (m : message).

Arguments Ok200 {A} data.
Arguments NotFound {A} m.

(** [get_instruments] *)
Definition get_instruments : reply (list Instrument.t) :=
  Ok200 instruments_db.

(** [get_order_status]: a stored order is a non-empty dict, so [not order]
    holds exactly when the id is not a key of [orders_db]. *)
Definition get_order_status (order_id : string) (st : state) : reply Order.t :=
  match orders_db st !! order_id with
  | None => NotFound (Text "Order not found")
  | Some order => Ok200 order
  end.

(** [get_trades] *)
Definition get_trades (st : state) : reply (list Trade.t) :=
  Ok200 (List.filter (fun t => String.eqb (Trade.userId t) MOCK_USER_ID)
                     (trades_db st)).

Module PortfolioItem.
Record t := {
  symbol : string;
  quantity : Q;
  averagePrice : Q;
  currentValue : Q
}.
End PortfolioItem.



(** * The client wrapper, [TradingSDK.place_order]

    The HTTP exchange is a parameter: [post] stands for
    [session.post(url, data=json.dumps(payload))], and answers with the
    server's response or fails with a [RequestException].  The arguments are
    JSON values, [None] being [JNull]. *)

Module TradingSDK.

Inductive wire :=
| Answer (r : response)
| RequestException (reason : string).

Inductive sdk_message :=
| Local (s : string)             (* a message of the wrapper itself *)
| HTTPError (code : nat)         (* str(e) of [raise_for_status] *)
| Transport (reason : string)    (* str(e) of another RequestException *)
| Relayed (m : message).         (* the message of the server's envelope *)

Inductive result :=
| Placed (order : Order.t)       (* the server's success envelope *)
| Failed (m : sdk_message).      (* {"status": "error", "message": ...} *)

(** The payload, or the error returned before anything is sent. *)
Definition payload (sym order_type qty order_style prc : json)
  : sdk_message + json :=
  let base := [("symbol", sym); ("orderType", order_type);
               ("quantity", qty); ("orderStyle", order_style)] in
  if py_eq_str order_style "LIMIT" then
    match prc with
    | JNull => inl (Local "Price is required for LIMIT orders")
    | _ => inr (JObj (base ++ [("price", prc)])%list)
    end
  else inr (JObj base).

(** [response.raise_for_status(); return response.json()] under
    [except RequestException]: a status from 400 on raises [HTTPError],
    and the body of the response is dropped. *)
Definition receive (w : wire) : result :=
  match w with
  | Answer (Success order) => Placed order
  | Answer (Error code m) =>
    if (400 <=? code)%nat then Failed (HTTPError code) else Failed (Relayed m)
  | RequestException reason => Failed (Transport reason)
  end.

Definition place_order (post : json -> wire)
    (sym order_type qty order_style prc : json) : result :=
  match payload sym order_type qty order_style prc with
  | inl m => Failed m
  | inr body => receive (post body)
  end.

End TradingSDK.

(** The server behind the wire: the handler in state [st]. *)
Definition served (e : env) (st : state) (body : json) : TradingSDK.wire :=
  TradingSDK.Answer (fst (place_order e body st)).

(** ** Definitions used in the further properties *)


(** A recorded trade: made for the one user, on a catalog symbol, at its
    catalog price, for a positive quantity. *)
Definition trade_ok (t : Trade.t) : Prop :=
  Trade.userId t = MOCK_USER_ID /\
  exists i q,
    find_instrument (Trade.symbol t) = Some i /\
    Trade.price t = JNum (Instrument.lastTradedPrice i) /\
    as_number (Trade.quantity t) = Some q /\ (0 < q)%Q.


Definition trades_inv (st : state) : Prop :=
  Forall trade_ok (trades_db st).





(** What one call of [place_order] can do to a state whose ledger is sound:
    nothing, or one of the four successful placements. *)
Inductive transition (e : env) (st : state) : response * state -> Prop :=
| tr_refused code m :
    transition e st (Error code m, st)
| tr_limit fields s i q :
    accepted st fields s i q ->
    obj_get "orderStyle" fields = JStr "LIMIT" ->
    transition e st
      (Success (limit_order e fields s),
       {| orders_db := <[uuid_order e := limit_order e fields s]> (orders_db st);
          trades_db := trades_db st;
          portfolio_db := portfolio_db st |})
| tr_buy fields s i q :
    accepted st fields s i q ->
    obj_get "orderStyle" fields = JStr "MARKET" ->
    obj_get "orderType" fields = JStr "BUY" ->
    transition e st
      (Success (market_order e fields s i BUY EXECUTED),
       {| orders_db :=
            <[uuid_order e := market_order e fields s i BUY EXECUTED]> (orders_db st);
          trades_db := (trades_db st ++ [market_trade e fields s i BUY])%list;
          portfolio_db :=
            <[s := bought (holding_of st s) q (Instrument.lastTradedPrice i)]>
              (portfolio_db st) |})
| tr_sell_all fields s i q :
    accepted st fields s i q ->
    obj_get "orderStyle" fields = JStr "MARKET" ->
    obj_get "orderType" fields = JStr "SELL" ->
    (Holding.quantity (holding_of st s) - q == 0)%Q ->
    transition e st
      (Success (market_order e fields s i SELL EXECUTED),
       {| orders_db :=
            <[uuid_order e := market_order e fields s i SELL EXECUTED]> (orders_db st);
          trades_db := (trades_db st ++ [market_trade e fields s i SELL])%list;
          portfolio_db := delete s (portfolio_db st) |})
| tr_sell_part fields s i q :
    accepted st fields s i q ->
    obj_get "orderStyle" fields = JStr "MARKET" ->
    obj_get "orderType" fields = JStr "SELL" ->
    (q < Holding.quantity (holding_of st s))%Q ->
    transition e st
      (Success (market_order e fields s i SELL EXECUTED),
       {| orders_db :=
            <[uuid_order e := market_order e fields s i SELL EXECUTED]> (orders_db st);
          trades_db := (trades_db st ++ [market_trade e fields s i SELL])%list;
          portfolio_db := <[s := sold (holding_of st s) q]> (portfolio_db st) |}).


(** Sample orders and trades: the order and the trade of [buy10] placed
    first, the order a LIMIT SELL of TCS leaves, and a body with an unknown
    key, a price and its keys in another order. *)
Definition reliance_buy_order : Order.t :=
  market_order env1 (fields_of buy10) "RELIANCE"
    (instrument "RELIANCE" (245050 # 100)) BUY EXECUTED.



Definition sell10_reordered : list (string * json) :=
  [("note", JStr "urgent"); ("price", JNum 1); ("quantity", JNum 10);
   ("orderStyle", JStr "MARKET"); ("orderType", JStr "SELL");
   ("symbol", JStr "RELIANCE")].

(** * Proofs *)

(** Unfolding the eight checks down to the tests they perform. *)
Ltac unfold_checks :=
  unfold checks, check_body, check_order_type, check_order_style,
    check_symbol, check_quantity, check_price, check_catalog, check_holding,
    held_under, with_field.

Ltac unfold_checks_in_all :=
  unfold checks, check_body, check_order_type, check_order_style,
    check_symbol, check_quantity, check_price, check_catalog, check_holding,
    held_under, with_field in *.

(** ** Comparisons on rationals *)

Lemma Qle_bool_false (x y : Q) : Qle_bool x y = false -> (y < x)%Q.
Proof.
  intros H. apply Qnot_le_lt. intros Hle.
  apply Qle_bool_iff in Hle. congruence.
Qed.

Lemma Qlt_bool_true (x y : Q) : Qlt_bool x y = true <-> (x < y)%Q.
Proof.
  unfold Qlt_bool. split.
  - intros H. apply Qle_bool_false. now destruct (Qle_bool y x).
  - intros H. destruct (Qle_bool y x) eqn:E; [|reflexivity].
    apply Qle_bool_iff in E. lra.
Qed.

Lemma Qlt_bool_false (x y : Q) : Qlt_bool x y = false <-> (y <= x)%Q.
Proof.
  unfold Qlt_bool. rewrite negb_false_iff. apply Qle_bool_iff.
Qed.

Lemma Qeq_bool_false (x y : Q) : Qeq_bool x y = false <-> ~ (x == y)%Q.
Proof.
  split; [apply Qeq_bool_neq|].
  intros H. destruct (Qeq_bool x y) eqn:E; [|reflexivity].
  apply Qeq_bool_iff in E. contradiction.
Qed.

(** ** Facts about the catalog and about JSON fields *)

Lemma find_instrument_symbol s i :
  find_instrument s = Some i -> Instrument.symbol i = s.
Proof.
  unfold find_instrument. intros H. apply find_some in H as [_ H].
  now apply String.eqb_eq in H.
Qed.

Lemma lookup_symbol_Some sym s i :
  lookup_symbol sym = Some (s, i) -> sym = JStr s /\ find_instrument s = Some i.
Proof.
  destruct sym; simpl; try discriminate.
  destruct (find_instrument s0) eqn:E; simpl; [|discriminate].
  intros [= <- <-]. auto.
Qed.


Lemma py_eq_str_true v s : py_eq_str v s = true <-> v = JStr s.
Proof.
  destruct v; simpl; split; try discriminate.
  - intros H. apply String.eqb_eq in H. now subst.
  - intros [= ->]. apply String.eqb_refl.
Qed.

(** ** What [execute_order] does to a stored order *)

Lemma held_quantity_holding_of st s :
  held_quantity st s = Holding.quantity (holding_of st s).
Proof. unfold held_quantity, holding_of. now destruct (portfolio_db st !! s). Qed.

Section Execute.
Variables (order_id trade_id now : string) (st : state) (o : Order.t).
Hypothesis Hstored : orders_db st !! order_id = Some o.

Lemma execute_order_buy q p :
  Order.orderType o = BUY ->
  as_number (Order.quantity o) = Some q ->
  as_number (Order.price o) = Some p ->
  ~ (Holding.quantity (holding_of st (Order.symbol o)) + q == 0)%Q ->
  execute_order order_id trade_id now st =
    ({| orders_db := <[order_id := set_status o EXECUTED]> (orders_db st);
        trades_db := (trades_db st ++ [trade_of trade_id order_id now o])%list;
        portfolio_db :=
          <[Order.symbol o := bought (holding_of st (Order.symbol o)) q p]>
            (portfolio_db st) |},
     None).
Proof.
  intros Hty Hq Hp Hnz. unfold execute_order, trade_of, bought.
  rewrite Hstored. simpl.
  rewrite Hty, Hq, Hp.
  unfold holding_of in *.
  destruct (portfolio_db st !! Order.symbol o) as [h0|] eqn:Hh; simpl in *.
  - rewrite Hh. simpl.
    apply Qeq_bool_false in Hnz. rewrite Hnz. reflexivity.
  - rewrite lookup_insert_eq. simpl.
    apply Qeq_bool_false in Hnz. rewrite Hnz.
    now rewrite insert_insert_eq.
Qed.

Lemma execute_order_sell_all q :
  Order.orderType o = SELL ->
  as_number (Order.quantity o) = Some q ->
  (Holding.quantity (holding_of st (Order.symbol o)) - q == 0)%Q ->
  execute_order order_id trade_id now st =
    ({| orders_db := <[order_id := set_status o EXECUTED]> (orders_db st);
        trades_db := (trades_db st ++ [trade_of trade_id order_id now o])%list;
        portfolio_db := delete (Order.symbol o) (portfolio_db st) |},
     None).
Proof.
  intros Hty Hq Hz. unfold execute_order, trade_of. rewrite Hstored. simpl.
  rewrite Hty, Hq.
  unfold holding_of in *.
  destruct (portfolio_db st !! Order.symbol o) as [h0|] eqn:Hh; simpl in *.
  - rewrite Hh. simpl.
    apply Qeq_bool_iff in Hz. rewrite Hz. reflexivity.
  - rewrite lookup_insert_eq. simpl.
    apply Qeq_bool_iff in Hz. rewrite Hz.
    now rewrite delete_insert_eq, delete_id.
Qed.

Lemma execute_order_sell_part q :
  Order.orderType o = SELL ->
  as_number (Order.quantity o) = Some q ->
  ~ (Holding.quantity (holding_of st (Order.symbol o)) - q == 0)%Q ->
  execute_order order_id trade_id now st =
    ({| orders_db := <[order_id := set_status o EXECUTED]> (orders_db st);
        trades_db := (trades_db st ++ [trade_of trade_id order_id now o])%list;
        portfolio_db :=
          <[Order.symbol o := sold (holding_of st (Order.symbol o)) q]>
            (portfolio_db st) |},
     None).
Proof.
  intros Hty Hq Hnz. unfold execute_order, trade_of, sold.
  rewrite Hstored. simpl.
  rewrite Hty, Hq.
  unfold holding_of in *.
  destruct (portfolio_db st !! Order.symbol o) as [h0|] eqn:Hh; simpl in *.
  - rewrite Hh. simpl.
    apply Qeq_bool_false in Hnz. rewrite Hnz. reflexivity.
  - rewrite lookup_insert_eq. simpl.
    apply Qeq_bool_false in Hnz. rewrite Hnz.
    now rewrite insert_insert_eq.
Qed.
End Execute.

(** ** Valid requests *)

Lemma valid_accepted st data :
  valid st data = true ->
  exists fields s i q, data = JObj fields /\ accepted st fields s i q.
Proof.
  unfold valid, checks. simpl. rewrite !andb_true_iff.
  intros (H1 & H2 & H3 & H4 & H5 & H6 & H7 & H8 & _).
  destruct data as [| | | | |fields]; try discriminate H2.
  unfold_checks_in_all.
  destruct (truthy (JObj fields)) eqn:E1; [|discriminate].
  destruct (py_in (obj_get "orderType" fields) _) eqn:E2; [|discriminate].
  destruct (py_in (obj_get "orderStyle" fields) _) eqn:E3; [|discriminate].
  destruct (truthy (obj_get "symbol" fields)) eqn:E4; [|discriminate].
  destruct (truthy (obj_get "quantity" fields)) eqn:E5; [|discriminate].
  destruct (as_number (obj_get "quantity" fields)) as [q|] eqn:E5'; [|discriminate].
  destruct (Qle_bool q 0) eqn:E5''; [discriminate|].
  destruct (py_eq_str (obj_get "orderStyle" fields) "LIMIT"
              && negb (truthy (obj_get "price" fields))) eqn:E6; [discriminate|].
  destruct (lookup_symbol (obj_get "symbol" fields)) as [[s i]|] eqn:E7;
    [|discriminate].
  exists fields, s, i, q. split; [reflexivity|].
  split; try assumption.
  apply lookup_symbol_Some in E7 as [E7 _]. rewrite E7 in H8.
  destruct (py_eq_str (obj_get "orderType" fields) "SELL"); [|reflexivity].
  simpl. now destruct (Qlt_bool (held_quantity st s) q).
Qed.

Lemma accepted_valid st fields s i q :
  accepted st fields s i q -> valid st (JObj fields) = true.
Proof.
  intros [A1 A2 A3 A4 A5 A6 A7 A8 A9 A10].
  unfold valid; unfold_checks.
  rewrite A1, A2, A3, A4, A5, A6, A7, A8, A9. simpl.
  apply lookup_symbol_Some in A9 as [-> _].
  destruct (py_eq_str (obj_get "orderType" fields) "SELL"); [|reflexivity].
  simpl in A10. now rewrite A10.
Qed.

(** Placing a valid request: the order is stored with status PLACED and,
    for a MARKET order, executed at once. *)
Lemma place_order_accepted e st fields s i q :
  accepted st fields s i q ->
  place_order e (JObj fields) st =
    let order_style := obj_get "orderStyle" fields in
    let order :=
      {| Order.orderId := uuid_order e;
         Order.userId := MOCK_USER_ID;
         Order.symbol := s;
         Order.orderType :=
           if py_eq_str (obj_get "orderType" fields) "BUY" then BUY else SELL;
         Order.orderStyle := if py_eq_str order_style "MARKET" then MARKET else LIMIT;
         Order.quantity := obj_get "quantity" fields;
         Order.price := if py_eq_str order_style "LIMIT" then obj_get "price" fields
                  else JNum (Instrument.lastTradedPrice i);
         Order.status := PLACED;
         Order.timestamp := now_order e |} in
    let st1 :=
      {| orders_db := <[uuid_order e := order]> (orders_db st);
         trades_db := trades_db st;
         portfolio_db := portfolio_db st |} in
    let '(st2, raised) :=
      if py_eq_str order_style "MARKET"
      then execute_order (uuid_order e) (uuid_trade e) (now_trade e) st1
      else (st1, None) in
    match raised with
    | Some ex => (Error 500 (ExnText ex), st2)
    | None => (Success (default order (orders_db st2 !! uuid_order e)), st2)
    end.
Proof.
  intros [A1 A2 A3 A4 A5 A6 A7 A8 A9 A10].
  unfold place_order.
  rewrite A1, A2, A3, A4, A5, A6, A7, A8, A9, A10. reflexivity.
Qed.

(** ** The handler against the list of checks *)

Lemma first_failure_lookup (vs : list verdict) (k : nat) (v : verdict) :
  vs !! k = Some v ->
  forallb is_pass (firstn k vs) = true ->
  v <> Pass ->
  first_failure vs = v.
Proof.
  revert k. induction vs as [|w vs IH]; intros k Hk Hbefore Hv.
  - discriminate.
  - destruct k as [|k].
    + simpl in Hk. injection Hk as ->. simpl. now destruct v.
    + cbn [firstn forallb] in Hbefore. apply andb_true_iff in Hbefore as [Hw Hrest].
      destruct w; try discriminate Hw.
      simpl. now apply (IH k).
Qed.

Lemma first_failure_valid st data :
  first_failure (checks st data) = Pass <-> valid st data = true.
Proof.
  unfold valid. generalize (checks st data). intros vs.
  induction vs as [|v vs IH]; simpl; [tauto|].
  destruct v; simpl; [exact IH| |]; split; discriminate.
Qed.

(** The handler returns what the first non-passing check dictates, and in
    that case leaves the three collections as they were. *)
Lemma place_order_checks e st data :
  match first_failure (checks st data) with
  | Fail m => place_order e data st = (Error 400 m, st)
  | Crash ex => place_order e data st = (Error 500 (ExnText ex), st)
  | Pass => valid st data = true
  end.
Proof.
  destruct (first_failure (checks st data)) eqn:Hff.
  { now apply first_failure_valid. }
  all: revert Hff; unfold_checks; unfold place_order, bad_request.
  all: destruct (truthy data) eqn:E1; cbn [first_failure negb]; [|congruence].
  all: destruct data as [| | | | |fields]; cbn [first_failure negb]; try congruence.
  all: destruct (py_in (obj_get "orderType" fields) ["BUY"; "SELL"]) eqn:E2;
    cbn [first_failure negb]; [|congruence].
  all: destruct (py_in (obj_get "orderStyle" fields) ["MARKET"; "LIMIT"]) eqn:E3;
    cbn [first_failure negb]; [|congruence].
  all: destruct (truthy (obj_get "symbol" fields)) eqn:E4;
    cbn [first_failure negb]; [|congruence].
  all: destruct (truthy (obj_get "quantity" fields)) eqn:E5;
    cbn [first_failure negb]; [|congruence].
  all: destruct (as_number (obj_get "quantity" fields)) as [q|] eqn:E5';
    cbn [first_failure negb]; [|congruence].
  all: destruct (Qle_bool q 0) eqn:E5''; cbn [first_failure negb]; [congruence|].
  all: destruct (py_eq_str (obj_get "orderStyle" fields) "LIMIT"
                   && negb (truthy (obj_get "price" fields))) eqn:E6;
    cbn [first_failure negb]; [congruence|].
  all: destruct (lookup_symbol (obj_get "symbol" fields)) as [[s i]|] eqn:E7;
    cbn [first_failure negb]; [|congruence].
  all: apply lookup_symbol_Some in E7 as [E7 _]; rewrite E7.
  all: destruct (py_eq_str (obj_get "orderType" fields) "SELL");
    cbn [first_failure negb andb]; [|congruence].
  all: destruct (Qlt_bool (held_quantity st s) q);
    cbn [first_failure negb andb]; congruence.
Qed.

Lemma place_order_invalid e st data :
  valid st data = false -> snd (place_order e data st) = st.
Proof.
  intros Hv. pose proof (place_order_checks e st data) as H.
  destruct (first_failure (checks st data)); [congruence| |]; now rewrite H.
Qed.

(** ** Placing a valid request, case by case *)

Section Placement.
Variables (e : env) (st : state) (fields : list (string * json)).
Variables (s : string) (i : Instrument.t) (q : Q).
Hypothesis Hacc : accepted st fields s i q.

Lemma accepted_positive : (0 < q)%Q.
Proof. apply Qle_bool_false. apply Hacc. Qed.


Lemma accepted_instrument : find_instrument s = Some i.
Proof. destruct Hacc. now apply lookup_symbol_Some in acc_catalog0. Qed.

Lemma accepted_sell_covered :
  obj_get "orderType" fields = JStr "SELL" ->
  (q <= Holding.quantity (holding_of st s))%Q.
Proof.
  intros Hty. destruct Hacc. rewrite Hty in acc_holding0. simpl in acc_holding0.
  apply Qlt_bool_false in acc_holding0.
  now rewrite <- held_quantity_holding_of.
Qed.

Lemma accepted_side :
  obj_get "orderType" fields = JStr "BUY" \/
  obj_get "orderType" fields = JStr "SELL".
Proof.
  destruct Hacc. unfold py_in in acc_type0. simpl in acc_type0.
  rewrite !orb_true_iff in acc_type0.
  destruct acc_type0 as [H|[H|H]]; [left|right|discriminate];
    now apply py_eq_str_true.
Qed.

Lemma accepted_style :
  obj_get "orderStyle" fields = JStr "MARKET" \/
  obj_get "orderStyle" fields = JStr "LIMIT".
Proof.
  destruct Hacc. unfold py_in in acc_style0. simpl in acc_style0.
  rewrite !orb_true_iff in acc_style0.
  destruct acc_style0 as [H|[H|H]]; [left|right|discriminate];
    now apply py_eq_str_true.
Qed.

Lemma place_limit :
  obj_get "orderStyle" fields = JStr "LIMIT" ->
  place_order e (JObj fields) st =
    (Success (limit_order e fields s),
     {| orders_db := <[uuid_order e := limit_order e fields s]> (orders_db st);
        trades_db := trades_db st;
        portfolio_db := portfolio_db st |}).
Proof.
  intros Hsty. rewrite (place_order_accepted _ _ _ _ _ _ Hacc).
  rewrite Hsty. cbn [py_eq_str]. simpl String.eqb. cbv zeta. cbn [orders_db].
  now rewrite lookup_insert_eq.
Qed.

Lemma place_market_buy :
  obj_get "orderStyle" fields = JStr "MARKET" ->
  obj_get "orderType" fields = JStr "BUY" ->
  ~ (Holding.quantity (holding_of st s) + q == 0)%Q ->
  place_order e (JObj fields) st =
    (Success (market_order e fields s i BUY EXECUTED),
     {| orders_db :=
          <[uuid_order e := market_order e fields s i BUY EXECUTED]> (orders_db st);
        trades_db := (trades_db st ++ [market_trade e fields s i BUY])%list;
        portfolio_db :=
          <[s := bought (holding_of st s) q (Instrument.lastTradedPrice i)]>
            (portfolio_db st) |}).
Proof.
  intros Hsty Hty Hnz. rewrite (place_order_accepted _ _ _ _ _ _ Hacc).
  rewrite Hsty, Hty. cbn [py_eq_str]. simpl String.eqb. cbv zeta.
  erewrite execute_order_buy with (q := q) (p := Instrument.lastTradedPrice i);
    [| apply lookup_insert_eq | reflexivity | apply Hacc | reflexivity
     | exact Hnz ].
  cbn [orders_db trades_db portfolio_db Order.symbol].
  rewrite insert_insert_eq, lookup_insert_eq. reflexivity.
Qed.

Lemma place_market_sell_all :
  obj_get "orderStyle" fields = JStr "MARKET" ->
  obj_get "orderType" fields = JStr "SELL" ->
  (Holding.quantity (holding_of st s) - q == 0)%Q ->
  place_order e (JObj fields) st =
    (Success (market_order e fields s i SELL EXECUTED),
     {| orders_db :=
          <[uuid_order e := market_order e fields s i SELL EXECUTED]> (orders_db st);
        trades_db := (trades_db st ++ [market_trade e fields s i SELL])%list;
        portfolio_db := delete s (portfolio_db st) |}).
Proof.
  intros Hsty Hty Hz. rewrite (place_order_accepted _ _ _ _ _ _ Hacc).
  rewrite Hsty, Hty. cbn [py_eq_str]. simpl String.eqb. cbv zeta.
  erewrite execute_order_sell_all with (q := q);
    [| apply lookup_insert_eq | reflexivity | apply Hacc | exact Hz ].
  cbn [orders_db trades_db portfolio_db Order.symbol].
  rewrite insert_insert_eq, lookup_insert_eq. reflexivity.
Qed.

Lemma place_market_sell_part :
  obj_get "orderStyle" fields = JStr "MARKET" ->
  obj_get "orderType" fields = JStr "SELL" ->
  ~ (Holding.quantity (holding_of st s) - q == 0)%Q ->
  place_order e (JObj fields) st =
    (Success (market_order e fields s i SELL EXECUTED),
     {| orders_db :=
          <[uuid_order e := market_order e fields s i SELL EXECUTED]> (orders_db st);
        trades_db := (trades_db st ++ [market_trade e fields s i SELL])%list;
        portfolio_db :=
          <[s := sold (holding_of st s) q]> (portfolio_db st) |}).
Proof.
  intros Hsty Hty Hnz. rewrite (place_order_accepted _ _ _ _ _ _ Hacc).
  rewrite Hsty, Hty. cbn [py_eq_str]. simpl String.eqb. cbv zeta.
  erewrite execute_order_sell_part with (q := q);
    [| apply lookup_insert_eq | reflexivity | apply Hacc | exact Hnz ].
  cbn [orders_db trades_db portfolio_db Order.symbol].
  rewrite insert_insert_eq, lookup_insert_eq. reflexivity.
Qed.
End Placement.

(** ** Preservation of the ledger invariant *)

Lemma holding_of_nonneg st s :
  ledger_inv st -> (0 <= Holding.quantity (holding_of st s))%Q.
Proof.
  intros Hinv. unfold holding_of.
  destruct (portfolio_db st !! s) as [h|] eqn:Hh; simpl.
  - apply Qlt_le_weak. now apply (Hinv s h).
  - apply Qle_refl.
Qed.

Lemma ledger_inv_insert st' st s h :
  ledger_inv st -> holding_ok h ->
  portfolio_db st' = <[s := h]> (portfolio_db st) ->
  ledger_inv st'.
Proof.
  intros Hinv Hok Hpf s' h'. rewrite Hpf, lookup_insert.
  case_decide.
  - intros [= <-]. exact Hok.
  - apply Hinv.
Qed.

Lemma ledger_inv_delete st' st s :
  ledger_inv st ->
  portfolio_db st' = delete s (portfolio_db st) ->
  ledger_inv st'.
Proof.
  intros Hinv Hpf s' h'. rewrite Hpf, lookup_delete.
  case_decide; [discriminate|apply Hinv].
Qed.

Lemma place_order_preserves e data st :
  ledger_inv st -> ledger_inv (snd (place_order e data st)).
Proof.
  intros Hinv. destruct (valid st data) eqn:Hv.
  2:{ now rewrite place_order_invalid. }
  apply valid_accepted in Hv as (fields & s & i & q & -> & Hacc).
  pose proof (accepted_positive _ _ _ _ _ Hacc) as Hq.
  pose proof (holding_of_nonneg st s Hinv) as Hh.
  destruct (accepted_style _ _ _ _ _ Hacc) as [Hsty|Hsty].
  - destruct (accepted_side _ _ _ _ _ Hacc) as [Hty|Hty].
    + rewrite (place_market_buy e _ _ _ _ _ Hacc Hsty Hty) by lra.
      eapply ledger_inv_insert; [exact Hinv| |reflexivity].
      split; simpl; [field|]; lra.
    + pose proof (accepted_sell_covered _ _ _ _ _ Hacc Hty) as Hcov.
      destruct (Qeq_dec (Holding.quantity (holding_of st s) - q) 0) as [Hz|Hnz].
      * rewrite (place_market_sell_all e _ _ _ _ _ Hacc Hsty Hty Hz).
        eapply ledger_inv_delete; [exact Hinv|reflexivity].
      * rewrite (place_market_sell_part e _ _ _ _ _ Hacc Hsty Hty Hnz).
        eapply ledger_inv_insert; [exact Hinv| |reflexivity].
        split; simpl; [reflexivity|]. lra.
  - rewrite (place_limit e _ _ _ _ _ Hacc Hsty). exact Hinv.
Qed.

Lemma initial_state_inv : ledger_inv initial_state.
Proof. intros s h. simpl. now rewrite lookup_empty. Qed.


Lemma reachable_inv st : reachable st -> ledger_inv st.
Proof.
  induction 1 as [|e data st _ IH].
  - exact initial_state_inv.
  - now apply place_order_preserves.
Qed.

Lemma reachable_run history st : reachable st -> reachable (run history st).
Proof.
  revert st. induction history as [|[e data] history IH]; intros st Hr.
  - exact Hr.
  - simpl. apply IH. now constructor.
Qed.



Lemma first_failure_In (vs : list verdict) :
  first_failure vs = Pass \/ In (first_failure vs) vs.
Proof.
  induction vs as [|v vs IH]; simpl; [now left|].
  destruct v; [|right; now left..].
  destruct IH; [now left|right; now right].
Qed.

(** With an object for a body and a number for a quantity, no check
    raises. *)
Lemma checks_no_crash st fields q ex :
  as_number (obj_get "quantity" fields) = Some q ->
  ~ In (Crash ex) (checks st (JObj fields)).
Proof.
  intros Hq. unfold_checks.
  rewrite Hq. cbn [In].
  repeat match goal with
         | |- context [if ?b then _ else _] => destruct b
         | |- context [match lookup_symbol ?v with _ => _ end] =>
             destruct (lookup_symbol v)
         end.
  all: intros H; repeat (destruct H as [H|H]; [discriminate|]); exact H.
Qed.

Lemma passes_first_five_inv st fields :
  passes_first_five st (JObj fields) = true ->
  exists q,
    truthy (JObj fields) = true /\
    py_in (obj_get "orderType" fields) ["BUY"; "SELL"] = true /\
    py_in (obj_get "orderStyle" fields) ["MARKET"; "LIMIT"] = true /\
    truthy (obj_get "symbol" fields) = true /\
    truthy (obj_get "quantity" fields) = true /\
    as_number (obj_get "quantity" fields) = Some q /\
    Qle_bool q 0 = false.
Proof.
  unfold passes_first_five, checks. cbn [firstn forallb].
  rewrite !andb_true_iff. intros (H1 & H2 & H3 & H4 & H5 & _).
  unfold_checks_in_all.
  destruct (truthy (JObj fields)) eqn:E1; [|discriminate].
  destruct (py_in (obj_get "orderType" fields) ["BUY"; "SELL"]) eqn:E2;
    [|discriminate].
  destruct (py_in (obj_get "orderStyle" fields) ["MARKET"; "LIMIT"]) eqn:E3;
    [|discriminate].
  destruct (truthy (obj_get "symbol" fields)) eqn:E4; [|discriminate].
  destruct (truthy (obj_get "quantity" fields)) eqn:E5; [|discriminate].
  destruct (as_number (obj_get "quantity" fields)) as [q|] eqn:E6;
    [|discriminate].
  destruct (Qle_bool q 0) eqn:E7; [discriminate|].
  exists q. repeat split; assumption || reflexivity.
Qed.


Lemma holding10_reachable : reachable holding10.
Proof. apply (reachable_step env1 buy10), reachable_initial. Qed.


(** ** The model on concrete requests *)

(** The scenario of the specification: buying 10 RELIANCE at market gives
    a holding of 10 at 2450.50; selling the 10 empties the ledger; two
    trades are on record. *)
Example scenario_buy_then_sell :
  portfolio_db holding10 = {[ "RELIANCE" := reliance10 ]} /\
  portfolio_db (run [(env1, buy10); (env2, sell10)] initial_state) = ∅ /\
  length (trades_db (run [(env1, buy10); (env2, sell10)] initial_state)) = 2%nat.
Proof. vm_compute. repeat split. Qed.

(** A quantity that is not a number makes the comparison [quantity <= 0]
    raise: the answer is a 500, not a validation error. *)
Example quantity_string_raises :
  place_order env1 (request "RELIANCE" "BUY" "MARKET" (JStr "ten") JNull)
              initial_state
  = (Error 500 (ExnText TypeError), initial_state).
Proof. reflexivity. Qed.

(** A body that is not an object has no [get]. *)
Example body_list_raises :
  place_order env1 (JArr [JNum 1]) initial_state
  = (Error 500 (ExnText AttributeError), initial_state).
Proof. reflexivity. Qed.

(** An empty object is a missing body. *)
Example body_empty_object :
  place_order env1 (JObj []) initial_state
  = (Error 400 (Text "Request body is required"), initial_state).
Proof. reflexivity. Qed.

(** * The properties *)




(** C3.  A SELL request (of either style) asking for more than is held
    under its symbol, a missing holding counting as 0, gets a validation
    error (status 400) and leaves the order book, the trade log and the
    ledger as they were; when the seven earlier checks pass, the message is
    the insufficient-holdings one. *)
Theorem sell_more_than_held_rejected (e : env) (st : state)
    (fields : list (string * json)) (q : Q) :
  obj_get "orderType" fields = JStr "SELL" ->
  as_number (obj_get "quantity" fields) = Some q ->
  (held_under st (obj_get "symbol" fields) < q)%Q ->
  exists m,
    place_order e (JObj fields) st = (Error 400 m, st) /\
    (forallb is_pass (firstn 7 (checks st (JObj fields))) = true ->
     m = Text "Insufficient holdings to sell").
Proof.
  intros Hty Hq Hlt.
  assert (Hfail : check_holding st (JObj fields)
                  = Fail (Text "Insufficient holdings to sell")).
  { unfold check_holding, with_field. rewrite Hty, Hq. cbn [py_eq_str].
    simpl String.eqb. cbv iota.
    apply Qlt_bool_true in Hlt. now rewrite Hlt. }
  pose proof (place_order_checks e st (JObj fields)) as Hpo.
  pose proof (first_failure_In (checks st (JObj fields))) as Hin.
  destruct (first_failure (checks st (JObj fields))) as [|m|ex] eqn:Hff.
  - unfold valid, checks in Hpo. cbn [forallb] in Hpo.
    rewrite Hfail in Hpo. rewrite !andb_true_iff in Hpo.
    destruct Hpo as (_ & _ & _ & _ & _ & _ & _ & Hp & _). discriminate.
  - exists m. split; [exact Hpo|].
    intros H7. revert Hff. unfold checks in *. cbn [firstn forallb] in H7.
    rewrite !andb_true_iff in H7.
    destruct H7 as (H1 & H2 & H3 & H4 & H5 & H6 & H7 & _).
    destruct (check_body _); [|discriminate..].
    destruct (check_order_type _); [|discriminate..].
    destruct (check_order_style _); [|discriminate..].
    destruct (check_symbol _); [|discriminate..].
    destruct (check_quantity _); [|discriminate..].
    destruct (check_price _); [|discriminate..].
    destruct (check_catalog _); [|discriminate..].
    rewrite Hfail. cbn [first_failure]. congruence.
  - destruct Hin as [Hin|Hin]; [discriminate|].
    now apply checks_no_crash with (q := q) in Hin.
Qed.

Lemma sell_more_than_held_rejected_witness :
  (held_under holding10 (JStr "RELIANCE") < 11)%Q /\
  exists m,
    place_order env2 sell11_limit holding10 = (Error 400 m, holding10) /\
    (forallb is_pass (firstn 7 (checks holding10 sell11_limit)) = true ->
     m = Text "Insufficient holdings to sell").
Proof.
  assert (Hlt : (held_under holding10 (JStr "RELIANCE") < 11)%Q)
    by (vm_compute; reflexivity).
  split; [exact Hlt|].
  apply (sell_more_than_held_rejected env2 holding10 (fields_of sell11_limit) 11).
  - reflexivity.
  - reflexivity.
  - exact Hlt.
Defined.

(** C4 as stated does not hold: the price-required error is not returned
    exactly when the price is absent.  A LIMIT request that supplies the
    price 0 passes the first five checks and is refused with that error,
    because the check is [not price] and 0 is falsy. *)
Lemma limit_price_absent_iff_error_fails :
  ~ (forall e st fields,
       passes_first_five st (JObj fields) = true ->
       obj_get "orderStyle" fields = JStr "LIMIT" ->
       (place_order e (JObj fields) st = (Error 400 price_required, st)
        <-> obj_get "price" fields = JNull)).
Proof.
  intros H.
  specialize (H env1 initial_state (fields_of limit_price_zero)
                eq_refl eq_refl).
  destruct H as [H _].
  specialize (H eq_refl). discriminate H.
Qed.

(** C4, amended.  For a LIMIT request that passes the first five checks,
    the price-required error is returned exactly when the price is absent
    or falsy (null, 0, false, an empty string, list or object).  A request
    whose price is truthy passes this check whatever the value
    (positivity is not enforced), and the order it leads to carries the
    price the caller supplied. *)
Theorem limit_price_required_iff_falsy (e : env) (st : state)
    (fields : list (string * json)) :
  passes_first_five st (JObj fields) = true ->
  obj_get "orderStyle" fields = JStr "LIMIT" ->
  (place_order e (JObj fields) st = (Error 400 price_required, st)
   <-> truthy (obj_get "price" fields) = false) /\
  (truthy (obj_get "price" fields) = true ->
   check_price (JObj fields) = Pass /\
   forall order,
     fst (place_order e (JObj fields) st) = Success order ->
     Order.price order = obj_get "price" fields).
Proof.
  intros H5 Hsty.
  apply passes_first_five_inv in H5 as (q & F1 & F2 & F3 & F4 & F5 & F6 & F7).
  assert (Hpo : place_order e (JObj fields) st =
    if negb (truthy (obj_get "price" fields))
    then (Error 400 price_required, st)
    else match lookup_symbol (obj_get "symbol" fields) with
         | None => (Error 400 (InvalidSymbol (obj_get "symbol" fields)), st)
         | Some (s, i) =>
           if py_eq_str (obj_get "orderType" fields) "SELL"
                && Qlt_bool (held_quantity st s) q
           then (Error 400 (Text "Insufficient holdings to sell"), st)
           else
             (Success (limit_order e fields s),
              {| orders_db :=
                   <[uuid_order e := limit_order e fields s]> (orders_db st);
                 trades_db := trades_db st;
                 portfolio_db := portfolio_db st |})
         end).
  { unfold place_order, bad_request, price_required.
    rewrite F1, F2, F3, F4, F5, F6, F7, Hsty.
    cbn [py_eq_str negb andb]. simpl String.eqb. cbv iota.
    destruct (truthy (obj_get "price" fields)); cbn [negb andb];
      [|reflexivity].
    destruct (lookup_symbol (obj_get "symbol" fields)) as [[s i]|];
      [|reflexivity].
    destruct (py_eq_str (obj_get "orderType" fields) "SELL"
                && Qlt_bool (held_quantity st s) q); [reflexivity|].
    cbv zeta. cbn [orders_db]. now rewrite lookup_insert_eq. }
  rewrite Hpo. clear Hpo.
  destruct (truthy (obj_get "price" fields)) eqn:Hp; cbn [negb].
  - split.
    + split; [|discriminate].
      destruct (lookup_symbol (obj_get "symbol" fields)) as [[s i]|];
        [|discriminate].
      destruct (_ && _); discriminate.
    + intros _. split.
      * unfold check_price, with_field. now rewrite Hsty, Hp.
      * intros order.
        destruct (lookup_symbol (obj_get "symbol" fields)) as [[s i]|];
          [|discriminate].
        destruct (_ && _); [discriminate|].
        cbn [fst]. now intros [= <-].
  - split; [tauto|discriminate].
Qed.

Lemma limit_price_required_iff_falsy_witness :
  (place_order env1 limit_price_negative initial_state
     = (Error 400 price_required, initial_state)
   <-> truthy (obj_get "price" (fields_of limit_price_negative)) = false) /\
  (truthy (obj_get "price" (fields_of limit_price_negative)) = true ->
   check_price limit_price_negative = Pass /\
   forall order,
     fst (place_order env1 limit_price_negative initial_state) = Success order ->
     Order.price order = obj_get "price" (fields_of limit_price_negative)).
Proof.
  apply (limit_price_required_iff_falsy env1 initial_state
           (fields_of limit_price_negative)).
  - vm_compute. reflexivity.
  - reflexivity.
Defined.

(** C5.  A valid LIMIT request (BUY or SELL) is answered with the order in
    status PLACED; the order is recorded, no trade is appended and the
    ledger is unchanged: the execution routine does not run. *)
Theorem limit_order_only_placed (e : env) (st : state) (fields : list (string * json)) :
  valid st (JObj fields) = true ->
  obj_get "orderStyle" fields = JStr "LIMIT" ->
  exists order st',
    place_order e (JObj fields) st = (Success order, st') /\
    Order.status order = PLACED /\
    orders_db st' = <[uuid_order e := order]> (orders_db st) /\
    trades_db st' = trades_db st /\
    portfolio_db st' = portfolio_db st.
Proof.
  intros Hv Hsty.
  apply valid_accepted in Hv as (fields' & s & i & q & [= <-] & Hacc).
  rewrite (place_limit e _ _ _ _ _ Hacc Hsty). cbv zeta.
  eexists _, _. split; [reflexivity|]. repeat split.
Qed.

Lemma limit_order_only_placed_witness :
  exists order st',
    place_order env2 sell10_tcs_limit holding10_tcs = (Success order, st') /\
    Order.status order = PLACED /\
    orders_db st' = <[uuid_order env2 := order]> (orders_db holding10_tcs) /\
    trades_db st' = trades_db holding10_tcs /\
    portfolio_db st' = portfolio_db holding10_tcs.
Proof.
  apply (limit_order_only_placed env2 holding10_tcs (fields_of sell10_tcs_limit)).
  - vm_compute. reflexivity.
  - reflexivity.
Defined.





(** Outside the reachable states the division of the BUY branch can fail:
    buying 1 on top of a holding of -1 divides by zero, and the handler
    answers 500. *)
Example buy_divides_by_zero_when_short :
  fst (place_order env1 (request "RELIANCE" "BUY" "MARKET" (JNum 1) JNull) short_state)
  = Error 500 (ExnText ZeroDivisionError).
Proof. vm_compute. reflexivity. Qed.








(** * Further properties of the code *)

(** ** One call of the handler, as a transition *)

Lemma place_order_transition e data st :
  ledger_inv st -> transition e st (place_order e data st).
Proof.
  intros Hinv. destruct (valid st data) eqn:Hv.
  2:{ pose proof (place_order_checks e st data) as H.
      destruct (first_failure (checks st data)) eqn:Hff;
        [congruence| |]; rewrite H; constructor. }
  apply valid_accepted in Hv as (fields & s & i & q & -> & Hacc).
  pose proof (accepted_positive _ _ _ _ _ Hacc) as Hq.
  pose proof (holding_of_nonneg st s Hinv) as Hh.
  destruct (accepted_style _ _ _ _ _ Hacc) as [Hsty|Hsty].
  - destruct (accepted_side _ _ _ _ _ Hacc) as [Hty|Hty].
    + rewrite (place_market_buy e _ _ _ _ _ Hacc Hsty Hty) by lra.
      now apply tr_buy with (q := q).
    + pose proof (accepted_sell_covered _ _ _ _ _ Hacc Hty) as Hcov.
      destruct (Qeq_dec (Holding.quantity (holding_of st s) - q) 0) as [Hz|Hnz].
      * rewrite (place_market_sell_all e _ _ _ _ _ Hacc Hsty Hty Hz).
        now apply tr_sell_all with (q := q).
      * rewrite (place_market_sell_part e _ _ _ _ _ Hacc Hsty Hty Hnz).
        apply tr_sell_part with (q := q); try assumption. lra.
  - rewrite (place_limit e _ _ _ _ _ Hacc Hsty).
    now apply tr_limit with (i := i) (q := q).
Qed.

Lemma reachable_transition e data st :
  reachable st -> transition e st (place_order e data st).
Proof. intros Hr. apply place_order_transition. now apply reachable_inv. Qed.

(** An induction principle for the reachable states: a property of the
    initial state kept by every transition holds in all of them. *)
Lemma reachable_ind_transition (P : state -> Prop) :
  P initial_state ->
  (forall e st r st', reachable st -> P st -> transition e st (r, st') -> P st') ->
  forall st, reachable st -> P st.
Proof.
  intros Hinit Hstep st Hr. induction Hr as [|e data st Hr IH].
  - exact Hinit.
  - apply (Hstep e st (fst (place_order e data st)) _ Hr IH).
    rewrite <- surjective_pairing. now apply reachable_transition.
Qed.

(** ** The catalog *)

Lemma catalog_price_positive s i :
  find_instrument s = Some i -> (0 < Instrument.lastTradedPrice i)%Q.
Proof.
  unfold find_instrument. intros H. apply find_some in H as [Hin _].
  simpl in Hin.
  repeat (destruct Hin as [<-|Hin]; [reflexivity|]). contradiction.
Qed.

(** ** The order book *)





(** ** The trade log *)

Lemma market_trade_ok e st fields s i q t :
  accepted st fields s i q -> trade_ok (market_trade e fields s i t).
Proof.
  intros Hacc. split; [reflexivity|]. exists i, q. cbn.
  split; [exact (accepted_instrument _ _ _ _ _ Hacc)|].
  split; [reflexivity|].
  split; [apply Hacc|exact (accepted_positive _ _ _ _ _ Hacc)].
Qed.

Lemma reachable_trades_inv st : reachable st -> trades_inv st.
Proof.
  apply reachable_ind_transition.
  - constructor.
  - intros e st0 r st' _ IH Htr. unfold trades_inv in *.
    inversion Htr; subst; cbn [trades_db]; try exact IH.
    all: apply Forall_app; split; [exact IH|].
    all: constructor; [|constructor]; eauto using market_trade_ok.
Qed.

Lemma filter_all {A : Type} (f : A -> bool) (l : list A) :
  Forall (fun x => f x = true) l -> List.filter f l = l.
Proof.
  induction 1 as [|x l Hx _ IH]; simpl; [reflexivity|].
  now rewrite Hx, IH.
Qed.

(** ** The ledger against the catalog *)


(** ** The ledger against the trade log *)




(** ** [execute_order] and [place_order] on any state *)

(** Whatever branch it takes, [execute_order] on a stored order marks it
    EXECUTED and appends its trade, also when it then raises. *)
Lemma execute_order_log order_id trade_id now st o :
  orders_db st !! order_id = Some o ->
  orders_db (fst (execute_order order_id trade_id now st))
    = <[order_id := set_status o EXECUTED]> (orders_db st) /\
  trades_db (fst (execute_order order_id trade_id now st))
    = (trades_db st ++ [trade_of trade_id order_id now o])%list.
Proof.
  intros Ho. unfold execute_order, trade_of. rewrite Ho.
  cbn [set_status Order.orderType Order.userId Order.symbol Order.quantity
       Order.price].
  destruct (Order.orderType o);
    repeat match goal with
           | |- context [match as_number ?v with _ => _ end] =>
               destruct (as_number v)
           | |- context [if Qeq_bool ?a ?b then _ else _] =>
               destruct (Qeq_bool a b)
           end; split; reflexivity.
Qed.

(** A valid request on any state: the order is stored under the fresh id,
    other ids are left alone, and at most one trade is appended. *)
Lemma place_order_accepted_book e st fields s i q :
  accepted st fields s i q ->
  exists o,
    orders_db (snd (place_order e (JObj fields) st))
      = <[uuid_order e := o]> (orders_db st) /\
    (forall order, fst (place_order e (JObj fields) st) = Success order ->
                   order = o) /\
    exists suffix,
      trades_db (snd (place_order e (JObj fields) st))
        = (trades_db st ++ suffix)%list /\
      (length suffix <= 1)%nat.
Proof.
  intros Hacc. rewrite (place_order_accepted _ _ _ _ _ _ Hacc). cbv zeta.
  set (order := {| Order.orderId := uuid_order e |}).
  set (st1 := {| orders_db := <[uuid_order e := order]> (orders_db st) |}).
  destruct (py_eq_str (obj_get "orderStyle" fields) "MARKET").
  - assert (Ho : orders_db st1 !! uuid_order e = Some order)
      by apply lookup_insert_eq.
    destruct (execute_order_log (uuid_order e) (uuid_trade e) (now_trade e)
                st1 order Ho) as [Hob Htr].
    destruct (execute_order _ _ _ st1) as [st2 [ex|]]; cbn [fst snd] in *.
    all: exists (set_status order EXECUTED).
    all: rewrite Hob, Htr; subst st1; cbn [orders_db trades_db].
    all: rewrite insert_insert_eq.
    all: split; [reflexivity|]; split;
      [|exists [trade_of (uuid_trade e) (uuid_order e) (now_trade e) order];
        split; [reflexivity|simpl; lia]].
    + discriminate.
    + rewrite lookup_insert_eq. now intros order' [= <-].
  - exists order. cbn [fst snd]. subst st1. cbn [orders_db trades_db].
    rewrite lookup_insert_eq. split; [reflexivity|].
    split; [now intros order' [= <-]|].
    exists []. split; [now rewrite app_nil_r|simpl; lia].
Qed.

(** Any request on any state: either it is refused, with status 400 or 500
    and no change, or it is valid and booked as above. *)
Lemma place_order_book e data st :
  (exists code m, place_order e data st = (Error code m, st) /\
                  (code = 400 \/ code = 500)%nat) \/
  (valid st data = true /\
   exists o,
     orders_db (snd (place_order e data st))
       = <[uuid_order e := o]> (orders_db st) /\
     (forall order, fst (place_order e data st) = Success order -> order = o) /\
     exists suffix,
       trades_db (snd (place_order e data st)) = (trades_db st ++ suffix)%list /\
       (length suffix <= 1)%nat).
Proof.
  pose proof (place_order_checks e st data) as H.
  destruct (first_failure (checks st data)) as [|m|ex].
  - right. split; [exact H|].
    apply valid_accepted in H as (fields & s & i & q & -> & Hacc).
    exact (place_order_accepted_book e _ _ _ _ _ Hacc).
  - left. exists 400%nat, m. auto.
  - left. exists 500%nat, (ExnText ex). auto.
Qed.

Lemma place_order_orders_other e data st id :
  uuid_order e <> id ->
  orders_db (snd (place_order e data st)) !! id = orders_db st !! id.
Proof.
  intros Hne. destruct (place_order_book e data st)
    as [(code & m & -> & _)|(_ & o & -> & _)]; [reflexivity|].
  now apply lookup_insert_ne.
Qed.

Lemma place_order_orders_kept e data st id :
  is_Some (orders_db st !! id) ->
  is_Some (orders_db (snd (place_order e data st)) !! id).
Proof.
  intros Hsome. destruct (place_order_book e data st)
    as [(code & m & -> & _)|(_ & o & -> & _)]; [exact Hsome|].
  rewrite lookup_insert. case_decide; [eauto|exact Hsome].
Qed.




(** X2.  An order that [place_order] returns can be fetched at once:
    [get_order_status] on the id drawn for it answers 200 with that same
    order, in the state it was returned in (EXECUTED for a MARKET order).
    This holds from any state. *)
Theorem placed_order_is_fetched (e : env) (st : state) (data : json)
    (order : Order.t) :
  fst (place_order e data st) = Success order ->
  get_order_status (uuid_order e) (snd (place_order e data st)) = Ok200 order.
Proof.
  intros Hs. unfold get_order_status.
  destruct (place_order_book e data st)
    as [(code & m & Heq & _)|(_ & o & Hob & Hsucc & _)].
  - rewrite Heq in Hs. discriminate.
  - rewrite Hob, lookup_insert_eq. now rewrite (Hsucc order Hs).
Qed.

Lemma placed_order_is_fetched_witness :
  get_order_status (uuid_order env2) (snd (place_order env2 sell4 holding10))
  = Ok200 (market_order env2 (fields_of sell4) "RELIANCE"
             (instrument "RELIANCE" (245050 # 100)) SELL EXECUTED).
Proof.
  apply (placed_order_is_fetched env2 holding10 sell4).
  vm_compute. reflexivity.
Defined.

(** X3.  Orders are never deleted, and a request only writes the order it
    places: an order that can be fetched before a call of [place_order] can
    be fetched after it, and it is the same order unless the call drew the
    very same id. *)
Theorem fetched_order_survives (e : env) (st : state) (data : json)
    (id : string) (o : Order.t) :
  get_order_status id st = Ok200 o ->
  (exists o', get_order_status id (snd (place_order e data st)) = Ok200 o') /\
  (uuid_order e <> id ->
   get_order_status id (snd (place_order e data st)) = Ok200 o).
Proof.
  unfold get_order_status. intros Hget.
  destruct (orders_db st !! id) as [o0|] eqn:Ho; [|discriminate].
  injection Hget as ->. split.
  - destruct (place_order_orders_kept e data st id) as [o' Ho'].
    + rewrite Ho. eauto.
    + exists o'. now rewrite Ho'.
  - intros Hne. now rewrite (place_order_orders_other e data st id Hne), Ho.
Qed.

Lemma fetched_order_survives_witness :
  (exists o', get_order_status "order-1" (snd (place_order env2 sell10 holding10))
              = Ok200 o') /\
  (uuid_order env2 <> "order-1" ->
   get_order_status "order-1" (snd (place_order env2 sell10 holding10))
   = Ok200 reliance_buy_order).
Proof.
  apply (fetched_order_survives env2 holding10 sell10 "order-1").
  vm_compute. reflexivity.
Defined.

Lemma run_orders_unknown history st id :
  Forall (fun r => uuid_order (fst r) <> id) history ->
  orders_db st !! id = None ->
  orders_db (run history st) !! id = None.
Proof.
  intros Hall. revert st.
  induction Hall as [|[e data] history Hne _ IH]; intros st Hnone.
  - exact Hnone.
  - simpl. apply IH. now rewrite place_order_orders_other.
Qed.

(** X4.  An id that no request of the history drew is not in the order
    book: [get_order_status] answers 404, "Order not found". *)
Theorem unknown_order_not_found (history : list (env * json)) (id : string) :
  Forall (fun r => uuid_order (fst r) <> id) history ->
  get_order_status id (run history initial_state)
  = NotFound (Text "Order not found").
Proof.
  intros Hall. unfold get_order_status.
  rewrite (run_orders_unknown history initial_state id Hall); [reflexivity|].
  apply lookup_empty.
Qed.

Lemma unknown_order_not_found_witness :
  get_order_status "order-9" (run buy10_sell4 initial_state)
  = NotFound (Text "Order not found").
Proof.
  apply (unknown_order_not_found buy10_sell4 "order-9").
  repeat constructor; discriminate.
Defined.



(** ** The trade log and the ledger *)

(** X6.  The trade log is append-only: whatever the state and the requests,
    the log after a history is the log before it followed by at most one
    new trade per request; no trade is removed, changed or reordered. *)
Theorem trade_log_append_only (history : list (env * json)) (st : state) :
  exists suffix,
    trades_db (run history st) = (trades_db st ++ suffix)%list /\
    (length suffix <= length history)%nat.
Proof.
  revert st. induction history as [|[e data] history IH]; intros st.
  - exists []. split; [now rewrite app_nil_r|reflexivity].
  - simpl. destruct (IH (snd (place_order e data st))) as (suf & -> & Hlen).
    assert (exists one, trades_db (snd (place_order e data st))
                        = (trades_db st ++ one)%list /\ (length one <= 1)%nat)
      as (one & -> & Hone).
    { destruct (place_order_book e data st)
        as [(code & m & -> & _)|(_ & o & _ & _ & Hsuf)]; [|exact Hsuf].
      exists []. split; [now rewrite app_nil_r|simpl; lia]. }
    exists (one ++ suf)%list. split; [now rewrite <- app_assoc|].
    rewrite length_app. lia.
Qed.

(** X7.  In every reachable state [get_trades] returns the whole trade log,
    in the order the trades were appended: the filter on the user id drops
    nothing, since every trade is made for the one user. *)
Theorem get_trades_returns_log (st : state) :
  reachable st -> get_trades st = Ok200 (trades_db st).
Proof.
  intros Hr. unfold get_trades. f_equal. apply filter_all.
  eapply Forall_impl; [exact (reachable_trades_inv st Hr)|].
  intros t [Hu _]. cbn beta. rewrite Hu. apply String.eqb_refl.
Qed.

Lemma get_trades_returns_log_witness :
  get_trades (run buy10_sell4 initial_state)
  = Ok200 (trades_db (run buy10_sell4 initial_state)).
Proof.
  apply (get_trades_returns_log (run buy10_sell4 initial_state)).
  apply (reachable_run _ initial_state), reachable_initial.
Defined.








(** ** The portfolio view *)



(** ** Executing an order twice *)



(** ** What [place_order] reads of a request *)

(** X13.  The handler reads a body only through its fields orderType,
    orderStyle, symbol and quantity, and through price when the style is
    LIMIT: two non-empty objects that agree on these get the same response
    and lead to the same state.  Unknown keys, the order of the keys, and
    the price of a MARKET request have no effect. *)
Theorem request_read_through_its_fields (e : env) (st : state)
    (fields1 fields2 : list (string * json)) :
  fields1 <> [] -> fields2 <> [] ->
  obj_get "orderType" fields1 = obj_get "orderType" fields2 ->
  obj_get "orderStyle" fields1 = obj_get "orderStyle" fields2 ->
  obj_get "symbol" fields1 = obj_get "symbol" fields2 ->
  obj_get "quantity" fields1 = obj_get "quantity" fields2 ->
  (obj_get "orderStyle" fields1 = JStr "LIMIT" ->
   obj_get "price" fields1 = obj_get "price" fields2) ->
  place_order e (JObj fields1) st = place_order e (JObj fields2) st.
Proof.
  intros H1 H2 Hty Hsty Hsym Hqty Hprc.
  assert (T1 : truthy (JObj fields1) = true) by now destruct fields1.
  assert (T2 : truthy (JObj fields2) = true) by now destruct fields2.
  assert (Hprc' : py_eq_str (obj_get "orderStyle" fields2) "LIMIT" = true ->
                  obj_get "price" fields1 = obj_get "price" fields2).
  { intros Hlim. apply Hprc. rewrite Hsty. now apply py_eq_str_true. }
  unfold place_order. rewrite T1, T2, Hty, Hsty, Hsym, Hqty. cbv zeta.
  destruct (py_eq_str (obj_get "orderStyle" fields2) "LIMIT").
  - now rewrite Hprc'.
  - reflexivity.
Qed.

Lemma request_read_through_its_fields_witness :
  place_order env2 (JObj sell10_reordered) holding10
  = place_order env2 sell10 holding10.
Proof.
  apply (request_read_through_its_fields env2 holding10 sell10_reordered
           (fields_of sell10)).
  - discriminate.
  - discriminate.
  - reflexivity.
  - reflexivity.
  - reflexivity.
  - reflexivity.
  - discriminate.
Defined.

(** ** Buying and selling back *)






(** ** The client wrapper against the handler *)

Lemma execute_order_raises order_id trade_id now st ex :
  snd (execute_order order_id trade_id now st) = Some ex ->
  ex = TypeError \/ ex = ZeroDivisionError.
Proof.
  unfold execute_order.
  destruct (orders_db st !! order_id) as [o|]; [|discriminate].
  destruct (Order.orderType (set_status o EXECUTED));
    repeat match goal with
           | |- context [match as_number ?v with _ => _ end] =>
               destruct (as_number v)
           | |- context [if Qeq_bool ?a ?b then _ else _] =>
               destruct (Qeq_bool a b)
           end; cbn [snd]; intros [= <-] || discriminate; auto.
Qed.

(** The error answers of the handler: status 400 or 500; for a body that
    is a non-empty object, never the missing-body message and never the
    [AttributeError] of a body without [get]. *)
Lemma place_order_error e data st code m :
  fst (place_order e data st) = Error code m ->
  (code = 400 \/ code = 500)%nat /\
  (forall fields, data = JObj fields -> fields <> [] ->
     m <> Text "Request body is required" /\ m <> ExnText AttributeError).
Proof.
  pose proof (place_order_checks e st data) as H.
  pose proof (first_failure_In (checks st data)) as Hin.
  destruct (first_failure (checks st data)) as [|m'|ex] eqn:Hff.
  - apply valid_accepted in H as (fields & s & i & q & -> & Hacc).
    rewrite (place_order_accepted _ _ _ _ _ _ Hacc). cbv zeta.
    destruct (py_eq_str (obj_get "orderStyle" fields) "MARKET").
    + pose proof (execute_order_raises (uuid_order e) (uuid_trade e)
                    (now_trade e)) as Hex.
      match goal with
      | |- context [execute_order ?a ?b ?c ?s] =>
          specialize (Hex s); destruct (execute_order a b c s) as [st2 [ex|]]
      end; cbn [fst snd] in *; [|discriminate].
      intros [= <- <-]. split; [auto|]. intros _ _ _.
      destruct (Hex ex eq_refl) as [->| ->]; split; discriminate.
    + discriminate.
  - rewrite H. cbn [fst]. intros [= <- <-]. split; [auto|].
    intros fields -> Hne. destruct Hin as [Hin|Hin]; [discriminate|].
    revert Hin. unfold_checks. destruct fields; [contradiction|].
    cbn [truthy In].
    repeat match goal with
           | |- context [if ?b then _ else _] => destruct b
           | |- context [match lookup_symbol ?v with _ => _ end] =>
               destruct (lookup_symbol v)
           | |- context [match as_number ?v with _ => _ end] =>
               destruct (as_number v)
           end.
    all: intros Hin;
      repeat (destruct Hin as [Hin|Hin];
              [try discriminate; injection Hin as <-; split; discriminate|]);
      contradiction.
  - rewrite H. cbn [fst]. intros [= <- <-]. split; [auto|].
    intros fields -> Hne. destruct Hin as [Hin|Hin]; [discriminate|].
    revert Hin. unfold_checks. destruct fields; [contradiction|].
    cbn [truthy In].
    repeat match goal with
           | |- context [if ?b then _ else _] => destruct b
           | |- context [match lookup_symbol ?v with _ => _ end] =>
               destruct (lookup_symbol v)
           | |- context [match as_number ?v with _ => _ end] =>
               destruct (as_number v)
           end.
    all: intros Hin;
      repeat (destruct Hin as [Hin|Hin];
              [try discriminate; injection Hin as <-; split; discriminate|]);
      contradiction.
Qed.

(** X15.  Whatever the wrapper sends is a non-empty object carrying the
    four fields it was given, and the price exactly when the style is
    LIMIT; so the handler never answers it with "Request body is required"
    nor with the 500 of a body that is not an object. *)
Theorem sdk_payload_reaches_field_checks (sym typ qty sty prc body : json) :
  TradingSDK.payload sym typ qty sty prc = inr body ->
  exists fields,
    body = JObj fields /\
    obj_get "symbol" fields = sym /\
    obj_get "orderType" fields = typ /\
    obj_get "quantity" fields = qty /\
    obj_get "orderStyle" fields = sty /\
    obj_get "price" fields = (if py_eq_str sty "LIMIT" then prc else JNull) /\
    forall e st,
      fst (place_order e body st)
        <> Error 400 (Text "Request body is required") /\
      fst (place_order e body st) <> Error 500 (ExnText AttributeError).
Proof.
  unfold TradingSDK.payload. intros Hp.
  assert (Hserver : forall fields, fields <> [] -> forall e st,
            fst (place_order e (JObj fields) st)
              <> Error 400 (Text "Request body is required") /\
            fst (place_order e (JObj fields) st)
              <> Error 500 (ExnText AttributeError)).
  { intros fields Hne e st. split; intros Heq.
    - destruct (place_order_error e _ st _ _ Heq) as [_ H].
      destruct (H fields eq_refl Hne) as [H1 _]. now apply H1.
    - destruct (place_order_error e _ st _ _ Heq) as [_ H].
      destruct (H fields eq_refl Hne) as [_ H2]. now apply H2. }
  destruct (py_eq_str sty "LIMIT").
  - destruct prc; try discriminate Hp; injection Hp as <-.
    all: eexists; split; [reflexivity|]; repeat split;
      try (apply Hserver; discriminate).
  - injection Hp as <-. eexists. split; [reflexivity|]. repeat split;
      try (apply Hserver; discriminate).
Qed.

Lemma sdk_payload_reaches_field_checks_witness :
  exists fields,
    limit_price_zero = JObj fields /\
    obj_get "symbol" fields = JStr "RELIANCE" /\
    obj_get "orderType" fields = JStr "BUY" /\
    obj_get "quantity" fields = JNum 1 /\
    obj_get "orderStyle" fields = JStr "LIMIT" /\
    obj_get "price" fields
      = (if py_eq_str (JStr "LIMIT") "LIMIT" then JNum 0 else JNull) /\
    forall e st,
      fst (place_order e limit_price_zero st)
        <> Error 400 (Text "Request body is required") /\
      fst (place_order e limit_price_zero st)
        <> Error 500 (ExnText AttributeError).
Proof.
  apply (sdk_payload_reaches_field_checks (JStr "RELIANCE") (JStr "BUY")
           (JNum 1) (JStr "LIMIT") (JNum 0) limit_price_zero).
  reflexivity.
Defined.

(** X16.  The wrapper and the handler test the LIMIT price differently:
    the wrapper refuses only a price that is [None], the handler any falsy
    price.  A LIMIT order with a falsy price other than [None] (0, false,
    an empty string, list or object) that passes the handler's first five
    checks is therefore sent, refused by the handler with "price is required
    for LIMIT orders" and no change of state, and reported by the wrapper
    as an HTTP error 400. *)
Theorem sdk_falsy_price_sent_then_refused (e : env) (st : state)
    (sym typ qty prc : json) :
  prc <> JNull ->
  truthy prc = false ->
  passes_first_five st
    (JObj [("symbol", sym); ("orderType", typ); ("quantity", qty);
           ("orderStyle", JStr "LIMIT"); ("price", prc)]) = true ->
  TradingSDK.payload sym typ qty (JStr "LIMIT") prc
    = inr (JObj [("symbol", sym); ("orderType", typ); ("quantity", qty);
                 ("orderStyle", JStr "LIMIT"); ("price", prc)]) /\
  place_order e
    (JObj [("symbol", sym); ("orderType", typ); ("quantity", qty);
           ("orderStyle", JStr "LIMIT"); ("price", prc)]) st
    = (Error 400 (Text "price is required for LIMIT orders"), st) /\
  TradingSDK.place_order (served e st) sym typ qty (JStr "LIMIT") prc
    = TradingSDK.Failed (TradingSDK.HTTPError 400).
Proof.
  intros Hnull Hfalsy Hfive.
  assert (Hpay : TradingSDK.payload sym typ qty (JStr "LIMIT") prc
    = inr (JObj [("symbol", sym); ("orderType", typ); ("quantity", qty);
                 ("orderStyle", JStr "LIMIT"); ("price", prc)])).
  { unfold TradingSDK.payload. cbn [py_eq_str]. simpl String.eqb. cbv iota.
    destruct prc; (reflexivity || contradiction). }
  set (body := JObj _) in *.
  assert (Hpo : place_order e body st
                = (Error 400 (Text "price is required for LIMIT orders"), st)).
  { pose proof (place_order_checks e st body) as H.
    rewrite (first_failure_lookup (checks st body) 5
               (Fail (Text "price is required for LIMIT orders"))) in H.
    - exact H.
    - subst body. unfold checks, check_price, with_field.
      cbn [lookup list_lookup]. f_equal.
      change (obj_get "orderStyle" _) with (JStr "LIMIT").
      change (obj_get "price" _) with prc.
      cbn [py_eq_str]. simpl String.eqb. now rewrite Hfalsy.
    - exact Hfive.
    - discriminate. }
  split; [exact Hpay|]. split; [exact Hpo|].
  unfold TradingSDK.place_order. rewrite Hpay. unfold served.
  now rewrite Hpo.
Qed.

Lemma sdk_falsy_price_sent_then_refused_witness :
  TradingSDK.payload (JStr "RELIANCE") (JStr "BUY") (JNum 1) (JStr "LIMIT")
    (JNum 0)
    = inr (JObj [("symbol", JStr "RELIANCE"); ("orderType", JStr "BUY");
                 ("quantity", JNum 1); ("orderStyle", JStr "LIMIT");
                 ("price", JNum 0)]) /\
  place_order env1
    (JObj [("symbol", JStr "RELIANCE"); ("orderType", JStr "BUY");
           ("quantity", JNum 1); ("orderStyle", JStr "LIMIT");
           ("price", JNum 0)]) initial_state
    = (Error 400 (Text "price is required for LIMIT orders"), initial_state) /\
  TradingSDK.place_order (served env1 initial_state) (JStr "RELIANCE")
    (JStr "BUY") (JNum 1) (JStr "LIMIT") (JNum 0)
    = TradingSDK.Failed (TradingSDK.HTTPError 400).
Proof.
  apply (sdk_falsy_price_sent_then_refused env1 initial_state
           (JStr "RELIANCE") (JStr "BUY") (JNum 1) (JNum 0)).
  - discriminate.
  - reflexivity.
  - vm_compute. reflexivity.
Defined.

(** X17.  Through the wrapper the handler's answer loses its message: a
    placed order is handed back as the handler returned it, and every
    refusal, whatever its message, comes back as the HTTP error of its
    status, 400 or 500; a LIMIT order without a price is refused by the
    wrapper itself. *)
Theorem sdk_outcome_through_server (e : env) (st : state)
    (sym typ qty sty prc : json) :
  TradingSDK.place_order (served e st) sym typ qty sty prc =
    match TradingSDK.payload sym typ qty sty prc with
    | inl m => TradingSDK.Failed m
    | inr body =>
      match fst (place_order e body st) with
      | Success order => TradingSDK.Placed order
      | Error code _ => TradingSDK.Failed (TradingSDK.HTTPError code)
      end
    end /\
  (forall code,
     TradingSDK.place_order (served e st) sym typ qty sty prc
       = TradingSDK.Failed (TradingSDK.HTTPError code) ->
     (code = 400 \/ code = 500)%nat).
Proof.
  unfold TradingSDK.place_order, served, TradingSDK.receive.
  destruct (TradingSDK.payload sym typ qty sty prc) as [m|body] eqn:Hp.
  - split; [reflexivity|]. intros code Hm. injection Hm as ->.
    unfold TradingSDK.payload in Hp.
    destruct (py_eq_str sty "LIMIT"); [destruct prc|]; discriminate.
  - destruct (fst (place_order e body st)) as [order|code m] eqn:Hr.
    + split; [reflexivity|discriminate].
    + destruct (place_order_error e body st code m Hr) as [Hcode _].
      assert (Hge : (400 <=? code)%nat = true).
      { destruct Hcode as [-> | ->]; reflexivity. }
      rewrite Hge. split; [reflexivity|]. now intros code' [= <-].
Qed.
